(** * code-server-operator: the bootstrap program [main.go]

    A shallow embedding of [main] (src/main.go) and of the wiring it performs
    between the manager, the CodeServer reconciler, the request channel, the
    probe ticker and the CodeServer watcher.

    [main] is a straight-line sequence of calls into external packages
    (flag, controller-runtime, time, os).  It is embedded as a program in a
    small state-and-abort monad: the state records the objects allocated so
    far, the calls performed (a trace) and the deferred calls; an abort is
    [os.Exit] or a panic.  The results of the external calls that can fail
    are read from an environment [Env], over which every theorem
    quantifies. *)

From Stdlib Require Import ZArith String List Bool Lia.
From stdpp Require Import base option strings list gmap.

Local Open Scope string_scope.
Local Open Scope list_scope.

(** ** Go integers *)

(** [int] is the 64-bit signed integer of the 64-bit targets the operator is
    built for; [time.Duration] is [int64] on every target.  Arithmetic on
    them wraps around in two's complement. *)
Module GoInt.

Definition MinInt64 : Z := - 2 ^ 63.
Definition MaxInt64 : Z := 2 ^ 63 - 1.

Definition in_int64 (z : Z) : bool :=
  ((MinInt64 <=? z) && (z <=? MaxInt64))%Z.

(** The value of a mathematical integer once stored in an [int64]. *)
Definition wrap64 (z : Z) : Z := ((z + 2 ^ 63) mod 2 ^ 64 - 2 ^ 63)%Z.

Definition mul64 (a b : Z) : Z := wrap64 (a * b).

End GoInt.

(** ** Package time *)

Module time.

(** [type Duration int64], a count of nanoseconds. *)
Definition Duration := Z.

Definition Nanosecond : Duration := 1%Z.
Definition Second : Duration := 1000000000%Z.

(** The conversion [time.Duration(n)] of an [int]. *)
Definition Duration_of_int (n : Z) : Duration := n.

(** [a * b] on two durations. *)
Definition mul (a b : Duration) : Duration := GoInt.mul64 a b.

(** [*time.Ticker]: the ticker object and its receive channel [C]. *)
Record Ticker := mkTicker {
  ticker_id : nat;
  C : nat;
  period : Duration
}.

End time.

(** ** Configuration: [controllers.CodeServerOption] and the flag variables *)

Definition error := string.

Record CodeServerOption := mkOption {
  DomainName : string;
  VSExporterImage : string;
  ProbeInterval : Z;
  MaxProbeRetry : Z;
  HttpsSecretName : string;
  LxdClientSecretName : string;
  EnableUserIngress : bool;
  MaxConcurrency : Z
}.

(** The local variables of [main] that the flag package writes. *)
Record Flags := mkFlags {
  metricsAddr : string;
  enableLeaderElection : bool;
  probeAddr : string;
  csOption : CodeServerOption
}.

(** One command-line argument [-name=value], after tokenisation. *)
Inductive FlagValue :=
| FString (s : string)
| FInt (z : Z)
| FBool (b : bool).

Module flag.

(** The defaults given to [flag.StringVar], [flag.BoolVar] and
    [flag.IntVar] (main.go, lines 62 to 77). *)
Definition defaults : Flags :=
  {| metricsAddr := ":8080";
     enableLeaderElection := false;
     probeAddr := ":8081";
     csOption :=
       {| DomainName := "pool1.playground.osinfra.cn";
          VSExporterImage := "ghcr.io/artificial-aidan/active-exporter:latest";
          ProbeInterval := 20;
          MaxProbeRetry := 10;
          HttpsSecretName := "code-server-secret";
          LxdClientSecretName := "lxd-client-secret";
          EnableUserIngress := false;
          MaxConcurrency := 10 |} |}.

Definition with_option (g : CodeServerOption -> CodeServerOption) (f : Flags) : Flags :=
  {| metricsAddr := metricsAddr f;
     enableLeaderElection := enableLeaderElection f;
     probeAddr := probeAddr f;
     csOption := g (csOption f) |}.

Definition set_metricsAddr (s : string) (f : Flags) : Flags :=
  {| metricsAddr := s;
     enableLeaderElection := enableLeaderElection f;
     probeAddr := probeAddr f;
     csOption := csOption f |}.

Definition set_probeAddr (s : string) (f : Flags) : Flags :=
  {| metricsAddr := metricsAddr f;
     enableLeaderElection := enableLeaderElection f;
     probeAddr := s;
     csOption := csOption f |}.

Definition set_enableLeaderElection (b : bool) (f : Flags) : Flags :=
  {| metricsAddr := metricsAddr f;
     enableLeaderElection := b;
     probeAddr := probeAddr f;
     csOption := csOption f |}.

Definition set_DomainName (s : string) (o : CodeServerOption) :=
  mkOption s (VSExporterImage o) (ProbeInterval o) (MaxProbeRetry o)
           (HttpsSecretName o) (LxdClientSecretName o) (EnableUserIngress o)
           (MaxConcurrency o).
Definition set_VSExporterImage (s : string) (o : CodeServerOption) :=
  mkOption (DomainName o) s (ProbeInterval o) (MaxProbeRetry o)
           (HttpsSecretName o) (LxdClientSecretName o) (EnableUserIngress o)
           (MaxConcurrency o).
Definition set_ProbeInterval (z : Z) (o : CodeServerOption) :=
  mkOption (DomainName o) (VSExporterImage o) z (MaxProbeRetry o)
           (HttpsSecretName o) (LxdClientSecretName o) (EnableUserIngress o)
           (MaxConcurrency o).
Definition set_MaxProbeRetry (z : Z) (o : CodeServerOption) :=
  mkOption (DomainName o) (VSExporterImage o) (ProbeInterval o) z
           (HttpsSecretName o) (LxdClientSecretName o) (EnableUserIngress o)
           (MaxConcurrency o).
Definition set_HttpsSecretName (s : string) (o : CodeServerOption) :=
  mkOption (DomainName o) (VSExporterImage o) (ProbeInterval o) (MaxProbeRetry o)
           s (LxdClientSecretName o) (EnableUserIngress o) (MaxConcurrency o).
Definition set_LxdClientSecretName (s : string) (o : CodeServerOption) :=
  mkOption (DomainName o) (VSExporterImage o) (ProbeInterval o) (MaxProbeRetry o)
           (HttpsSecretName o) s (EnableUserIngress o) (MaxConcurrency o).
Definition set_EnableUserIngress (b : bool) (o : CodeServerOption) :=
  mkOption (DomainName o) (VSExporterImage o) (ProbeInterval o) (MaxProbeRetry o)
           (HttpsSecretName o) (LxdClientSecretName o) b (MaxConcurrency o).
Definition set_MaxConcurrency (z : Z) (o : CodeServerOption) :=
  mkOption (DomainName o) (VSExporterImage o) (ProbeInterval o) (MaxProbeRetry o)
           (HttpsSecretName o) (LxdClientSecretName o) (EnableUserIngress o) z.

Definition as_string (v : FlagValue) : option string :=
  match v with FString s => Some s | _ => None end.
Definition as_bool (v : FlagValue) : option bool :=
  match v with FBool b => Some b | _ => None end.
(** [flag.IntVar] reads its value with [strconv.ParseInt(s, 0, 64)]: a
    number outside [int] is a parse error. *)
Definition as_int (v : FlagValue) : option Z :=
  match v with
  | FInt z => if GoInt.in_int64 z then Some z else None
  | _ => None
  end.

(** Setting one flag.  [other] stands for the flags that
    [zap.Options.BindFlags] adds to the command line: they do not touch
    the variables of [main].  [None] is a parse error. *)
Definition Set_ (other : string -> FlagValue -> bool)
           (f : Flags) (a : string * FlagValue) : option Flags :=
  let (name, v) := a in
  if String.eqb name "metrics-bind-address" then
    s ← as_string v; Some (set_metricsAddr s f)
  else if String.eqb name "health-probe-bind-address" then
    s ← as_string v; Some (set_probeAddr s f)
  else if String.eqb name "leader-elect" then
    b ← as_bool v; Some (set_enableLeaderElection b f)
  else if String.eqb name "domain-name" then
    s ← as_string v; Some (with_option (set_DomainName s) f)
  else if String.eqb name "vs-default-exporter" then
    s ← as_string v; Some (with_option (set_VSExporterImage s) f)
  else if String.eqb name "probe-interval" then
    z ← as_int v; Some (with_option (set_ProbeInterval z) f)
  else if String.eqb name "max-probe-retry" then
    z ← as_int v; Some (with_option (set_MaxProbeRetry z) f)
  else if String.eqb name "secret-name" then
    s ← as_string v; Some (with_option (set_HttpsSecretName s) f)
  else if String.eqb name "lxd-client-secret-name" then
    s ← as_string v; Some (with_option (set_LxdClientSecretName s) f)
  else if String.eqb name "enable-user-ingress" then
    b ← as_bool v; Some (with_option (set_EnableUserIngress b) f)
  else if String.eqb name "max-concurrency" then
    z ← as_int v; Some (with_option (set_MaxConcurrency z) f)
  else if other name v then Some f
  else None.

(** [flag.Parse]: the arguments are applied from left to right, so the
    last occurrence of a flag wins; the first error stops the parse. *)
Fixpoint parse (other : string -> FlagValue -> bool)
         (f : Flags) (args : list (string * FlagValue)) : option Flags :=
  match args with
  | [] => Some f
  | a :: rest =>
      match Set_ other f a with
      | Some f' => parse other f' rest
      | None => None
      end
  end.

(** The two kinds of error of [flag.Parse]: [ErrHelp], for [-h] or [-help]
    when no flag of that name is defined, and any other error. *)
Inductive ParseError := ErrHelp | ErrOther.

(** The error raised by an argument that [Set_] refuses. *)
Definition error_of (a : string * FlagValue) : ParseError :=
  if String.eqb (fst a) "help" || String.eqb (fst a) "h" then ErrHelp
  else ErrOther.

(** The error [flag.Parse] stops at: that of the first argument refused. *)
Fixpoint parse_error (other : string -> FlagValue -> bool)
         (f : Flags) (args : list (string * FlagValue)) : option ParseError :=
  match args with
  | [] => None
  | a :: rest =>
      match Set_ other f a with
      | Some f' => parse_error other f' rest
      | None => Some (error_of a)
      end
  end.

(** The value an integer flag [name] ends up with: the last integer
    given to it on the command line, or [default]. *)
Definition last_int (name : string) (args : list (string * FlagValue))
           (default : Z) : Z :=
  fold_left (fun cur (a : string * FlagValue) =>
               if String.eqb (fst a) name then
                 match snd a with FInt z => z | _ => cur end
               else cur)
            args default.

(** The same for a string flag and for a boolean flag. *)
Definition last_string (name : string) (args : list (string * FlagValue))
           (default : string) : string :=
  fold_left (fun cur (a : string * FlagValue) =>
               if String.eqb (fst a) name then
                 match snd a with FString s => s | _ => cur end
               else cur)
            args default.

Definition last_bool (name : string) (args : list (string * FlagValue))
           (default : bool) : bool :=
  fold_left (fun cur (a : string * FlagValue) =>
               if String.eqb (fst a) name then
                 match snd a with FBool b => b | _ => cur end
               else cur)
            args default.

(** The variables of [main] when every flag holds the last value given to
    it in [args], and the value it has in [f] when [args] does not name
    it. *)
Definition last_values (f : Flags) (args : list (string * FlagValue)) : Flags :=
  {| metricsAddr := last_string "metrics-bind-address" args (metricsAddr f);
     enableLeaderElection :=
       last_bool "leader-elect" args (enableLeaderElection f);
     probeAddr := last_string "health-probe-bind-address" args (probeAddr f);
     csOption :=
       {| DomainName := last_string "domain-name" args (DomainName (csOption f));
          VSExporterImage :=
            last_string "vs-default-exporter" args (VSExporterImage (csOption f));
          ProbeInterval :=
            last_int "probe-interval" args (ProbeInterval (csOption f));
          MaxProbeRetry :=
            last_int "max-probe-retry" args (MaxProbeRetry (csOption f));
          HttpsSecretName :=
            last_string "secret-name" args (HttpsSecretName (csOption f));
          LxdClientSecretName :=
            last_string "lxd-client-secret-name" args
                        (LxdClientSecretName (csOption f));
          EnableUserIngress :=
            last_bool "enable-user-ingress" args (EnableUserIngress (csOption f));
          MaxConcurrency :=
            last_int "max-concurrency" args (MaxConcurrency (csOption f)) |} |}.

(** The three integer options fit in an [int]. *)
Definition ints_in_range (f : Flags) : bool :=
  GoInt.in_int64 (ProbeInterval (csOption f))
  && GoInt.in_int64 (MaxProbeRetry (csOption f))
  && GoInt.in_int64 (MaxConcurrency (csOption f)).

(** The flags of [main] whose variable is an [int]. *)
Definition int_flags : list string :=
  ["probe-interval"; "max-probe-retry"; "max-concurrency"].

End flag.

(** ** The objects [main] creates and hands around *)

(** Objects that are allocated at run time (channels, tickers, contexts,
    the manager, the watcher) are named by the order of their allocation. *)
Definition ObjId := nat.

Record Logger := mkLogger { logger_names : list string }.

(** [*runtime.Scheme]: the API groups registered in it. *)
Record RuntimeScheme := mkScheme { registered : list string }.

(** The package variable [scheme] once [init] has run (lines 41 and 49 to
    54): [clientgoscheme] and [csv1alpha1] have been added to it. *)
Definition scheme : RuntimeScheme :=
  mkScheme ["clientgoscheme"; "csv1alpha1"].

(** [ctrl.Options] as filled in by [main] (lines 87 to 105). *)
Record ManagerOptions := mkManagerOptions {
  Options_Scheme : RuntimeScheme;
  MetricsBindAddress : string;
  Port : Z;
  HealthProbeBindAddress : string;
  LeaderElection : bool;
  LeaderElectionID : string
}.

Record Manager := mkManager { mgr_id : ObjId; mgr_options : ManagerOptions }.

(** [mgr.GetClient()] and [mgr.GetScheme()]: handles owned by the manager. *)
Inductive ClientRef := GetClient (mgr : Manager).
Inductive SchemeRef := GetScheme (mgr : Manager).

(** The pointer [&csOption]: the address of the local variable [csOption]
    of [main], with the value stored there ([main] does not write the
    variable after [flag.Parse]).  [main] takes the address of no other
    variable of this type. *)
Inductive OptionPtr := AddrOf_csOption (v : CodeServerOption).

Definition deref (p : OptionPtr) : CodeServerOption :=
  match p with AddrOf_csOption v => v end.

(** The literal [&controllers.CodeServerReconciler{...}] (lines 113 to
    119). *)
Record CodeServerReconciler := mkReconciler {
  Client : ClientRef;
  Scheme : SchemeRef;
  Log : Logger;
  Options : OptionPtr;
  ReqCh : ObjId
}.

(** The arguments of [controllers.NewCodeServerWatcher] (lines 138 to 144),
    in order. *)
Record CodeServerWatcher := mkWatcher {
  watcher_id : ObjId;
  w_client : ClientRef;
  w_log : Logger;
  w_scheme : SchemeRef;
  w_options : OptionPtr;
  w_reqCh : ObjId;
  w_probeTicker : ObjId
}.

(** The context returned by [ctrl.SetupSignalHandler], with the channel
    that [Done] returns. *)
Record Context := mkContext { ctx_id : ObjId; ctx_done : ObjId }.

Definition Done (ctx : Context) : ObjId := ctx_done ctx.

(** A [go] statement of [main]. *)
Inductive Goroutine :=
| WatcherRun (w : CodeServerWatcher) (stopCh : ObjId).





(** A [defer] statement of [main]. *)
Inductive Deferred :=
| DeferTickerStop (t : time.Ticker).

(** The calls [main] performs on the outside world, in program order. *)
Inductive Event :=
| EvSetLogger
| EvNewManager (mgr : Manager)
| EvError (err : error) (msg : string) (keysAndValues : list string)
| EvInfo (msg : string)
| EvMakeChan (c : ObjId) (capacity : Z)
| EvSetupWithManager (r : CodeServerReconciler) (mgr : Manager) (concurrency : Z)
| EvAddHealthzCheck (name : string)
| EvAddReadyzCheck (name : string)
| EvNewTicker (t : time.Ticker)
| EvDefer (d : Deferred)
| EvNewCodeServerWatcher (w : CodeServerWatcher)
| EvSetupSignalHandler (ctx : Context)
| EvGo (g : Goroutine)
| EvStart (mgr : Manager) (ctx : Context)
| EvTickerStop (t : time.Ticker)
| EvPanic (msg : string)
| EvExit (code : Z).

(** ** The environment of one run *)

Record Env := mkEnv {
  (** [os.Args[1:]], tokenised into flag assignments. *)
  args : list (string * FlagValue);
  (** The flags bound by [opts.BindFlags(flag.CommandLine)]. *)
  zap_flag : string -> FlagValue -> bool;
  (** Whether [ctrl.GetConfigOrDie] finds a cluster configuration. *)
  config_found : bool;
  NewManager_err : option error;
  SetupWithManager_err : option error;
  AddHealthzCheck_err : option error;
  AddReadyzCheck_err : option error;
  Start_err : option error
}.

(** ** The monad of [main] *)

Inductive Outcome (A : Type) :=
| Returned (a : A)
| Exited (code : Z)
| Panicked (msg : string).
Arguments Returned {A} a.
Arguments Exited {A} code.
Arguments Panicked {A} msg.

Record Proc := mkProc {
  trace : list Event;
  next_obj : ObjId;
  deferred : list Deferred
}.

Definition M (A : Type) : Type := Proc -> Outcome A * Proc.

Definition ret {A} (a : A) : M A := fun s => (Returned a, s).

Definition bind {A B} (m : M A) (k : A -> M B) : M B :=
  fun s =>
    match m s with
    | (Returned a, s') => k a s'
    | (Exited code, s') => (Exited code, s')
    | (Panicked msg, s') => (Panicked msg, s')
    end.

Notation "x <- c ;; k" := (bind c (fun x => k))
  (at level 100, c at next level, right associativity).
Notation "c ;;; k" := (bind c (fun _ => k))
  (at level 100, right associativity).

Definition emit (e : Event) : M unit :=
  fun s => (Returned tt, mkProc (trace s ++ [e]) (next_obj s) (deferred s)).

Definition fresh : M ObjId :=
  fun s => (Returned (next_obj s), mkProc (trace s) (S (next_obj s)) (deferred s)).

Definition defer (d : Deferred) : M unit :=
  fun s => (Returned tt, mkProc (trace s ++ [EvDefer d]) (next_obj s) (d :: deferred s)).

(** [os.Exit(code)]: the process ends at once; deferred calls are not run. *)
Definition os_Exit {A} (code : Z) : M A :=
  fun s => (Exited code, mkProc (trace s ++ [EvExit code]) (next_obj s) (deferred s)).

Definition panic {A} (msg : string) : M A :=
  fun s => (Panicked msg, mkProc (trace s ++ [EvPanic msg]) (next_obj s) (deferred s)).

(** ** The external calls of [main] *)

Definition REQUEST_CHAN_SIZE : Z := 10.

Definition setupLog : Logger := mkLogger ["setup"].

Definition setupLog_Error (err : error) (msg : string)
           (keysAndValues : list string) : M unit :=
  emit (EvError err msg keysAndValues).

Definition setupLog_Info (msg : string) : M unit := emit (EvInfo msg).

(** [flag.Parse()] on [flag.CommandLine], whose error handling is
    [ExitOnError]: [ErrHelp] ends the process with status 0, any other
    parse error with status 2. *)
Definition flag_Parse (env : Env) : M Flags :=
  match flag.parse (zap_flag env) flag.defaults (args env) with
  | Some f => ret f
  | None =>
      match flag.parse_error (zap_flag env) flag.defaults (args env) with
      | Some flag.ErrHelp => os_Exit 0
      | _ => os_Exit 2
      end
  end.

Definition ctrl_SetLogger : M unit := emit EvSetLogger.

(** [ctrl.GetConfigOrDie()]: exits with status 1 without a configuration. *)
Definition ctrl_GetConfigOrDie (env : Env) : M unit :=
  if config_found env then ret tt else os_Exit 1.

Definition ctrl_NewManager (env : Env) (o : ManagerOptions)
  : M (Manager * option error) :=
  id <- fresh ;;
  let mgr := mkManager id o in
  emit (EvNewManager mgr) ;;;
  ret (mgr, NewManager_err env).

(** [make(chan controllers.CodeServerRequest, n)]. *)
Definition make_chan (n : Z) : M ObjId :=
  c <- fresh ;;
  emit (EvMakeChan c n) ;;;
  ret c.

Definition SetupWithManager (env : Env) (r : CodeServerReconciler)
           (mgr : Manager) (concurrency : Z) : M (option error) :=
  emit (EvSetupWithManager r mgr concurrency) ;;;
  ret (SetupWithManager_err env).

Definition AddHealthzCheck (env : Env) (name : string) : M (option error) :=
  emit (EvAddHealthzCheck name) ;;;
  ret (AddHealthzCheck_err env).

Definition AddReadyzCheck (env : Env) (name : string) : M (option error) :=
  emit (EvAddReadyzCheck name) ;;;
  ret (AddReadyzCheck_err env).

(** [time.NewTicker(d)] panics unless [d] is positive; otherwise it
    allocates the ticker and its channel [C]. *)
Definition time_NewTicker (d : time.Duration) : M time.Ticker :=
  if (d <=? 0)%Z then panic "non-positive interval for NewTicker"
  else
    id <- fresh ;;
    c <- fresh ;;
    let t := time.mkTicker id c d in
    emit (EvNewTicker t) ;;;
    ret t.

Definition NewCodeServerWatcher (client : ClientRef) (log : Logger)
           (sch : SchemeRef) (options : OptionPtr)
           (reqCh : ObjId) (probeTicker : ObjId) : M CodeServerWatcher :=
  id <- fresh ;;
  let w := mkWatcher id client log sch options reqCh probeTicker in
  emit (EvNewCodeServerWatcher w) ;;;
  ret w.

Definition ctrl_SetupSignalHandler : M Context :=
  id <- fresh ;;
  done <- fresh ;;
  let ctx := mkContext id done in
  emit (EvSetupSignalHandler ctx) ;;;
  ret ctx.

Definition go (g : Goroutine) : M unit := emit (EvGo g).

(** [mgr.Start(ctx)] blocks until the context is cancelled or the manager
    fails, and returns the error, if any. *)
Definition Start (env : Env) (mgr : Manager) (ctx : Context) : M (option error) :=
  emit (EvStart mgr ctx) ;;;
  ret (Start_err env).

(** The statement [if err != nil { setupLog.Error(err, msg); os.Exit(1) }]. *)
Definition exit_on_error (err : option error) (msg : string)
           (keysAndValues : list string) : M unit :=
  match err with
  | Some e => setupLog_Error e msg keysAndValues ;;; os_Exit 1
  | None => ret tt
  end.

Definition ctrl_Log_WithName (names : list string) : Logger := mkLogger names.

(** ** [main] (main.go, lines 56 to 153) *)

Definition main (env : Env) : M unit :=
  fl <- flag_Parse env ;;
  ctrl_SetLogger ;;;
  ctrl_GetConfigOrDie env ;;;
  r <- ctrl_NewManager env
         {| Options_Scheme := scheme;
            MetricsBindAddress := metricsAddr fl;
            Port := 9443;
            HealthProbeBindAddress := probeAddr fl;
            LeaderElection := enableLeaderElection fl;
            LeaderElectionID := "beb50962.opensourceways.com" |} ;;
  let mgr := fst r in
  exit_on_error (snd r) "unable to start manager" [] ;;;
  csRequest <- make_chan REQUEST_CHAN_SIZE ;;
  err <- SetupWithManager env
           {| Client := GetClient mgr;
              Scheme := GetScheme mgr;
              Log := ctrl_Log_WithName ["controllers"; "CodeServer"];
              Options := AddrOf_csOption (csOption fl);
              ReqCh := csRequest |}
           mgr (MaxConcurrency (csOption fl)) ;;
  exit_on_error err "unable to create controller" ["controller"; "CodeServer"] ;;;
  err <- AddHealthzCheck env "healthz" ;;
  exit_on_error err "unable to set up health check" [] ;;;
  err <- AddReadyzCheck env "readyz" ;;
  exit_on_error err "unable to set up ready check" [] ;;;
  probeTicker <- time_NewTicker
                   (time.mul (time.Duration_of_int (ProbeInterval (csOption fl)))
                             time.Second) ;;
  defer (DeferTickerStop probeTicker) ;;;
  codeServerWatcher <- NewCodeServerWatcher
                         (GetClient mgr)
                         (ctrl_Log_WithName ["controllers"; "CodeServerWatcher"])
                         (GetScheme mgr)
                         (AddrOf_csOption (csOption fl))
                         csRequest
                         (time.C probeTicker) ;;
  stopContext <- ctrl_SetupSignalHandler ;;
  go (WatcherRun codeServerWatcher (Done stopContext)) ;;;
  setupLog_Info "starting manager" ;;;
  err <- Start env mgr stopContext ;;
  exit_on_error err "problem running manager" [].

(** ** Running the process *)

Definition run_deferred (d : Deferred) : Event :=
  match d with
  | DeferTickerStop t => EvTickerStop t
  end.

(** The state of the process when [main] is entered. *)
Definition at_entry : Proc := mkProc [] 0 [].

(** The process: [main] from the initial state; the deferred calls run, last
    first, when [main] returns or panics, and do not run after [os.Exit]. *)
Definition run (env : Env) : Outcome unit * list Event :=
  match main env at_entry with
  | (Returned a, s) => (Returned a, trace s ++ map run_deferred (deferred s))
  | (Panicked msg, s) => (Panicked msg, trace s ++ map run_deferred (deferred s))
  | (Exited code, s) => (Exited code, trace s)
  end.

Definition outcome (env : Env) : Outcome unit := fst (run env).
Definition events (env : Env) : list Event := snd (run env).

(** A cluster in which every call succeeds. *)
Definition env_ok (a : list (string * FlagValue)) : Env :=
  {| args := a;
     zap_flag := fun _ _ => false;
     config_found := true;
     NewManager_err := None;
     SetupWithManager_err := None;
     AddHealthzCheck_err := None;
     AddReadyzCheck_err := None;
     Start_err := None |}.

(** The same cluster, with the probe interval given on the command line. *)
Definition env_interval (p : Z) : Env := env_ok [("probe-interval", FInt p)].

(** A cluster in which registering the controller fails. *)
Definition env_setup_fails : Env :=
  {| args := [];
     zap_flag := fun _ _ => false;
     config_found := true;
     NewManager_err := None;
     SetupWithManager_err := Some "no kind CodeServer";
     AddHealthzCheck_err := None;
     AddReadyzCheck_err := None;
     Start_err := None |}.

(** A cluster without a configuration. *)
Definition env_no_config : Env :=
  {| args := [];
     zap_flag := fun _ _ => false;
     config_found := false;
     NewManager_err := None;
     SetupWithManager_err := None;
     AddHealthzCheck_err := None;
     AddReadyzCheck_err := None;
     Start_err := None |}.

(** ** The watcher's side of the request channel *)

(** Modelled from the spec: the Watcher ([controllers.CodeServerWatcher],
    its [Run] loop and its send on the request channel) is not part of
    main.go.  The definitions below follow sections 3 and 4.2 of the
    specification: the per-instance failure counters, one probe pass per
    tick, and the non-blocking send that drops and logs a request when the
    channel is full. *)
Module Watcher.

Inductive Phase :=
| Pending | Provisioning | Active | Degraded | Inactive | Failed | Terminating.

Inductive Reason :=
| SpecChanged | ProbeFailureThresholdReached | ProbeRecovered | ResourceDeleted.

Record ReconcileRequest := mkRequest {
  key : string;
  reason : Reason
}.

(** The bounded queue behind a buffered channel. *)
Record RequestChannel := mkChannel {
  capacity : Z;
  queue : list ReconcileRequest
}.

Definition is_full (ch : RequestChannel) : bool :=
  (capacity ch <=? Z.of_nat (length (queue ch)))%Z.

(** A non-blocking send: the request is queued when there is room, and
    the send is refused, at once, when there is none. *)
Definition try_send (r : ReconcileRequest) (ch : RequestChannel)
  : option RequestChannel :=
  if is_full ch then None
  else Some (mkChannel (capacity ch) (queue ch ++ [r])).

Inductive LogEntry :=
| Dropped (r : ReconcileRequest).

Record State := mkState {
  counters : gmap string nat;
  reqCh : RequestChannel;
  log : list LogEntry
}.

(** Emitting a request: a non-blocking send; a refused request is dropped
    and logged. *)
Definition emit (r : ReconcileRequest) (st : State) : State :=
  match try_send r (reqCh st) with
  | Some ch => mkState (counters st) ch (log st)
  | None => mkState (counters st) (reqCh st) (log st ++ [Dropped r])
  end.

(** One tracked instance as a pass sees it: its key, its phase and
    failure count in the resource status, and the result of its probe. *)
Record Instance := mkInstance {
  inst_key : string;
  inst_phase : Phase;
  inst_failures : nat;
  probe_ok : bool
}.

(** Only instances in phase Active or Degraded are probed. *)
Definition tracked (i : Instance) : bool :=
  match inst_phase i with
  | Active | Degraded => true
  | _ => false
  end.

(** The counter of an instance, seeded from its status when the watcher
    has none yet. *)
Definition counter (st : State) (i : Instance) : nat :=
  default (inst_failures i) (counters st !! inst_key i).

Definition set_counter (k : string) (n : nat) (st : State) : State :=
  mkState (<[k := n]> (counters st)) (reqCh st) (log st).

Definition is_inactive (p : Phase) : bool :=
  match p with Inactive => true | _ => false end.

(** The outcome of one probe (section 4.2, loop body). *)
Definition probe_one (maxProbeRetry : nat) (st : State) (i : Instance) : State :=
  let n := counter st i in
  if probe_ok i then
    if negb (Nat.eqb n 0) || is_inactive (inst_phase i) then
      emit (mkRequest (inst_key i) ProbeRecovered)
           (set_counter (inst_key i) 0 st)
    else set_counter (inst_key i) 0 st
  else
    let st' := set_counter (inst_key i) (S n) st in
    if Nat.eqb (S n) maxProbeRetry then
      emit (mkRequest (inst_key i) ProbeFailureThresholdReached) st'
    else st'.

(** One pass of the loop body, run once per tick. *)
Definition tick (maxProbeRetry : nat) (instances : list Instance) (st : State) : State :=
  fold_left (probe_one maxProbeRetry) (List.filter tracked instances) st.

(** A watcher whose channel, of capacity 10, holds 10 requests. *)
Definition alice_failed : ReconcileRequest :=
  mkRequest "alice" ProbeFailureThresholdReached.

Definition saturated : State :=
  mkState ∅ (mkChannel 10 (replicate 10 alice_failed)) [].

End Watcher.

(** ** Observations on a trace *)

Definition made_chans (tr : list Event) : list (ObjId * Z) :=
  omap (fun e => match e with EvMakeChan c n => Some (c, n) | _ => None end) tr.

Definition managers (tr : list Event) : list Manager :=
  omap (fun e => match e with EvNewManager m => Some m | _ => None end) tr.

Definition setups (tr : list Event) : list (CodeServerReconciler * Z) :=
  omap (fun e => match e with
                 | EvSetupWithManager r _ n => Some (r, n)
                 | _ => None
                 end) tr.

Definition tickers (tr : list Event) : list time.Ticker :=
  omap (fun e => match e with EvNewTicker t => Some t | _ => None end) tr.

Definition deferrals (tr : list Event) : list Deferred :=
  omap (fun e => match e with EvDefer d => Some d | _ => None end) tr.

Definition ticker_stops (tr : list Event) : list time.Ticker :=
  omap (fun e => match e with EvTickerStop t => Some t | _ => None end) tr.

Definition watchers (tr : list Event) : list CodeServerWatcher :=
  omap (fun e => match e with EvNewCodeServerWatcher w => Some w | _ => None end) tr.

Definition contexts (tr : list Event) : list Context :=
  omap (fun e => match e with EvSetupSignalHandler c => Some c | _ => None end) tr.

Definition goroutines (tr : list Event) : list Goroutine :=
  omap (fun e => match e with EvGo g => Some g | _ => None end) tr.

Definition starts (tr : list Event) : list (Manager * Context) :=
  omap (fun e => match e with EvStart m c => Some (m, c) | _ => None end) tr.

Definition errors (tr : list Event) : list (error * string) :=
  omap (fun e => match e with EvError err msg _ => Some (err, msg) | _ => None end) tr.

(** The last [n] events of a trace. *)
Definition final (n : nat) (tr : list Event) : list Event :=
  drop (length tr - n) tr.

(** The flags were parsed without error into [fl]. *)
Definition parsed (env : Env) (fl : Flags) : Prop :=
  flag.parse (zap_flag env) flag.defaults (args env) = Some fl.

(** The duration [main] computes for the ticker. *)
Definition probe_period (fl : Flags) : time.Duration :=
  time.mul (time.Duration_of_int (ProbeInterval (csOption fl))) time.Second.

(** The run gets as far as line 111: the flags parse, a configuration is
    found and the manager is created. *)
Definition manager_created (env : Env) (fl : Flags) : Prop :=
  parsed env fl /\ config_found env = true /\ NewManager_err env = None.

(** The run gets as far as line 135: moreover the controller and the two
    checks are registered. *)
Definition checks_registered (env : Env) (fl : Flags) : Prop :=
  manager_created env fl /\
  SetupWithManager_err env = None /\
  AddHealthzCheck_err env = None /\
  AddReadyzCheck_err env = None.

(** The same run with [-leader-elect=b] added at the end of the command
    line. *)
Definition with_leader_elect (b : bool) (env : Env) : Env :=
  {| args := args env ++ [("leader-elect", FBool b)];
     zap_flag := zap_flag env;
     config_found := config_found env;
     NewManager_err := NewManager_err env;
     SetupWithManager_err := SetupWithManager_err env;
     AddHealthzCheck_err := AddHealthzCheck_err env;
     AddReadyzCheck_err := AddReadyzCheck_err env;
     Start_err := Start_err env |}.

(** * Properties *)

(** ** Symbolic execution of [main] *)

Ltac unfold_main :=
  unfold events, outcome, run, main, flag_Parse, ctrl_GetConfigOrDie,
    checks_registered, manager_created, parsed,
    probe_period, ctrl_NewManager, make_chan, SetupWithManager, AddHealthzCheck,
    AddReadyzCheck, time_NewTicker, NewCodeServerWatcher, ctrl_SetupSignalHandler,
    Start, exit_on_error, setupLog_Error, setupLog_Info, ctrl_SetLogger, go in *.

Ltac exec_cbn :=
  cbn -[flag.parse flag.parse_error time.mul Z.leb REQUEST_CHAN_SIZE] in *.

Ltac exec_step :=
  exec_cbn;
  match goal with
  | H : ?x = _ |- context [match ?x with _ => _ end] => rewrite H
  | H : ?x = _ |- context [if ?x then _ else _] => rewrite H
  | |- context [match flag.parse ?z ?d ?a with _ => _ end] =>
      destruct (flag.parse z d a) eqn:?
  | |- context [match flag.parse_error ?z ?d ?a with _ => _ end] =>
      destruct (flag.parse_error z d a) as [[|]|] eqn:?
  | |- context [if ?b then _ else _] => destruct b eqn:?
  | |- context [match ?e with Some _ => _ | None => _ end] => destruct e eqn:?
  end.

Ltac exec env :=
  destruct env; unfold_main;
  repeat exec_step;
  exec_cbn.

(** ** Flags *)

Section Flags.

Variable other : string -> FlagValue -> bool.

Ltac split_name n :=
  repeat match goal with
         | H : context [String.eqb n ?s] |- _ =>
             destruct (String.eqb_spec n s); [subst n | ]
         end.

Ltac flag_cases :=
  repeat match goal with
         | H : (_ ≫= _) = Some _ |- _ =>
             apply bind_Some in H; destruct H as (? & ? & ?)
         | H : flag.as_int ?v = Some _ |- _ =>
             destruct v; cbn in H; try discriminate;
             destruct (GoInt.in_int64 _) eqn:?; try discriminate
         | H : Some _ = Some _ |- _ => injection H as H; subst
         | H : (if ?b then _ else _) = Some _ |- _ =>
             destruct b; try discriminate
         end.

Lemma Set_MaxConcurrency f a f' :
  flag.Set_ other f a = Some f' ->
  MaxConcurrency (csOption f') =
    flag.last_int "max-concurrency" [a] (MaxConcurrency (csOption f)).
Proof.
  destruct a as [n v]; unfold flag.Set_, flag.last_int; intros H.
  split_name n; cbn in *; flag_cases; cbn; try reflexivity.
  all: destruct (String.eqb_spec n "max-concurrency"); congruence.
Qed.

Lemma Set_ProbeInterval f a f' :
  flag.Set_ other f a = Some f' ->
  ProbeInterval (csOption f') =
    flag.last_int "probe-interval" [a] (ProbeInterval (csOption f)).
Proof.
  destruct a as [n v]; unfold flag.Set_, flag.last_int; intros H.
  split_name n; cbn in *; flag_cases; cbn; try reflexivity.
  all: destruct (String.eqb_spec n "probe-interval"); congruence.
Qed.

Lemma last_int_cons name a rest d :
  flag.last_int name (a :: rest) d =
    flag.last_int name rest (flag.last_int name [a] d).
Proof. reflexivity. Qed.

(** A parsed integer flag holds the last value given on the command
    line, or its default. *)
Lemma parse_MaxConcurrency a : forall f fl,
  flag.parse other f a = Some fl ->
  MaxConcurrency (csOption fl) =
    flag.last_int "max-concurrency" a (MaxConcurrency (csOption f)).
Proof.
  induction a as [|x rest IH]; intros f fl H.
  - injection H as <-. reflexivity.
  - cbn [flag.parse] in H.
    destruct (flag.Set_ other f x) as [f'|] eqn:Hset; [|discriminate].
    rewrite last_int_cons, (IH _ _ H).
    now rewrite (Set_MaxConcurrency _ _ _ Hset).
Qed.

Lemma parse_ProbeInterval a : forall f fl,
  flag.parse other f a = Some fl ->
  ProbeInterval (csOption fl) =
    flag.last_int "probe-interval" a (ProbeInterval (csOption f)).
Proof.
  induction a as [|x rest IH]; intros f fl H.
  - injection H as <-. reflexivity.
  - cbn [flag.parse] in H.
    destruct (flag.Set_ other f x) as [f'|] eqn:Hset; [|discriminate].
    rewrite last_int_cons, (IH _ _ H).
    now rewrite (Set_ProbeInterval _ _ _ Hset).
Qed.

(** Parsing goes from left to right. *)
Lemma parse_app a b : forall f,
  flag.parse other f (a ++ b) =
    match flag.parse other f a with
    | Some f' => flag.parse other f' b
    | None => None
    end.
Proof.
  induction a as [|x rest IH]; intros f; cbn; [reflexivity|].
  destruct (flag.Set_ other f x); [apply IH | reflexivity].
Qed.

End Flags.

(** ** 64-bit arithmetic *)

Lemma wrap64_small z :
  (GoInt.MinInt64 <= z <= GoInt.MaxInt64)%Z -> GoInt.wrap64 z = z.
Proof.
  unfold GoInt.wrap64, GoInt.MinInt64, GoInt.MaxInt64; intros H.
  rewrite Z.mod_small; lia.
Qed.

(** Whole seconds that fit in a [Duration] are converted exactly. *)
Lemma seconds_exact p :
  (-9223372036 <= p <= 9223372036)%Z ->
  time.mul (time.Duration_of_int p) time.Second = (p * 1000000000)%Z.
Proof.
  intros H; unfold time.mul, time.Duration_of_int, time.Second, GoInt.mul64.
  apply wrap64_small; unfold GoInt.MinInt64, GoInt.MaxInt64; lia.
Qed.

(** ** The request channel *)

(** C1. [main] creates the request channel at one place only, with capacity
    [REQUEST_CHAN_SIZE], which is 10: a run never creates two such channels,
    never one of another capacity, and creates exactly one once the manager
    has been created. *)
Theorem request_channel_capacity (env : Env) :
  (forall c n, (c, n) ∈ made_chans (events env) ->
               n = REQUEST_CHAN_SIZE /\ n = 10%Z) /\
  length (made_chans (events env)) <= 1 /\
  (forall fl, manager_created env fl ->
              exists c, made_chans (events env) = [(c, 10%Z)]).
Proof.
  split; [|split].
  - intros c n. exec env; intros Hin;
      repeat (apply elem_of_cons in Hin as [Hin|Hin];
              [injection Hin as -> ->; split; reflexivity|]);
      apply elem_of_nil in Hin; contradiction.
  - exec env; lia.
  - intros fl (Hp & Hc & Hm). exec env; try discriminate; eexists; reflexivity.
Qed.

Lemma request_channel_capacity_witness :
  manager_created (env_ok []) flag.defaults /\
  exists c, made_chans (events (env_ok [])) = [(c, 10%Z)].
Proof.
  assert (H : manager_created (env_ok []) flag.defaults)
    by (repeat split; reflexivity).
  split; [exact H|].
  exact (proj2 (proj2 (request_channel_capacity (env_ok []))) flag.defaults H).
Defined.

(** C3. The reconciler is registered with the manager exactly once, and the
    concurrency bound it is given is [csOption.MaxConcurrency]: the last
    value of the flag [max-concurrency] on the command line, 10 when the
    flag is absent. *)
Theorem worker_pool_size (env : Env) (fl : Flags) :
  manager_created env fl ->
  (exists r, setups (events env) = [(r, MaxConcurrency (csOption fl))]) /\
  MaxConcurrency (csOption fl) = flag.last_int "max-concurrency" (args env) 10.
Proof.
  intros (Hp & Hc & Hm). split.
  - exec env; try discriminate; eexists; reflexivity.
  - apply (parse_MaxConcurrency _ _ _ _ Hp).
Qed.

Lemma worker_pool_size_witness :
  (exists r, setups (events (env_ok [])) = [(r, 10%Z)]) /\
  (exists r, setups (events (env_ok [("max-concurrency", FInt 4)])) = [(r, 4%Z)]).
Proof.
  split.
  - apply (worker_pool_size (env_ok []) flag.defaults).
    repeat split; reflexivity.
  - apply (worker_pool_size (env_ok [("max-concurrency", FInt 4)])
             (flag.with_option (flag.set_MaxConcurrency 4) flag.defaults)).
    repeat split; reflexivity.
Defined.

(** ** Membership in a computed list *)

Ltac elems H :=
  first [ apply elem_of_nil in H; contradiction
        | apply elem_of_cons in H; destruct H as [H|H]; [ | elems H ] ].

(** ** Which runs reach the watcher *)

(** A watcher is constructed only in runs that registered the controller
    and the checks and whose ticker period is positive. *)
Lemma watcher_reached (env : Env) (w : CodeServerWatcher) :
  w ∈ watchers (events env) ->
  exists fl, checks_registered env fl /\ (0 < probe_period fl)%Z.
Proof.
  exec env; intros H; try (elems H; fail).
  all: eexists; repeat split; try reflexivity; lia.
Qed.

(** Such runs launch the watcher and start the manager. *)
Lemma reached_launch (env : Env) (fl : Flags) :
  checks_registered env fl -> (0 < probe_period fl)%Z ->
  exists w ctx m,
    watchers (events env) = [w] /\
    goroutines (events env) = [WatcherRun w (Done ctx)] /\
    managers (events env) = [m] /\
    starts (events env) = [(m, ctx)] /\
    LeaderElection (mgr_options m) = enableLeaderElection fl.
Proof.
  intros ((Hp & Hc & Hm) & Hs & Hh & Hr) Hpos.
  exec env; try discriminate; try lia;
    do 3 eexists; repeat split; reflexivity.
Qed.

(** ** Wiring of the request channel *)





(** ** The stop signal *)

(** C5. The signal handler is set up once; the channel [Done] of its context
    is the stop channel of the watcher's [Run], and the same context is the
    one given to the manager's [Start]. *)
Theorem single_stop_signal (env : Env) (ctx : Context) :
  ctx ∈ contexts (events env) ->
  contexts (events env) = [ctx] /\
  (exists w, goroutines (events env) = [WatcherRun w (Done ctx)] /\
             watchers (events env) = [w]) /\
  (exists m, starts (events env) = [(m, ctx)] /\ managers (events env) = [m]).
Proof.
  exec env; intros H; elems H; subst ctx;
    (split; [reflexivity|]); split; eexists; split; reflexivity.
Qed.

Lemma single_stop_signal_witness :
  exists ctx w m,
    contexts (events (env_ok [])) = [ctx] /\
    goroutines (events (env_ok [])) = [WatcherRun w (Done ctx)] /\
    starts (events (env_ok [])) = [(m, ctx)].
Proof.
  destruct (single_stop_signal (env_ok []) (mkContext 5 6))
    as (Hc & (w & Hg & _) & (m & Hs & _)).
  { vm_compute. apply list_elem_of_singleton. reflexivity. }
  exists (mkContext 5 6), w, m. repeat split; assumption.
Defined.

(** ** The probe ticker *)

(** C7. The ticker belongs to [main]: [main] creates it and defers its
    [Stop]; the watcher is handed the ticker's channel [C] and no reference
    to the ticker itself, neither at construction nor at [Run].  When [main]
    returns, the deferred [Stop] is the last thing the process does. *)
Theorem ticker_owned_by_main (env : Env) (t : time.Ticker) :
  t ∈ tickers (events env) ->
  tickers (events env) = [t] /\
  deferrals (events env) = [DeferTickerStop t] /\
  (exists w, watchers (events env) = [w] /\
             w_probeTicker w = time.C t /\
             time.ticker_id t ∉ [watcher_id w; w_reqCh w; w_probeTicker w]) /\
  (forall w stopCh, WatcherRun w stopCh ∈ goroutines (events env) ->
                    stopCh <> time.ticker_id t) /\
  (outcome env = Returned tt ->
   ticker_stops (events env) = [t] /\
   last (events env) = Some (EvTickerStop t)) /\
  (forall code, outcome env = Exited code -> ticker_stops (events env) = []).
Proof.
  exec env; intros H; elems H; subst t; cbn;
    (split; [reflexivity|]); (split; [reflexivity|]);
    (split; [eexists; split; [reflexivity|split; [reflexivity|]]|]).
  all: try (intros Hin; elems Hin; discriminate).
  all: split; [intros w stopCh Hg; elems Hg; injection Hg as -> ->; cbn; lia|].
  all: split; [intros Ho; first [discriminate | split; reflexivity]
              | intros code Ho; first [discriminate | reflexivity]].
Qed.

Lemma ticker_owned_by_main_witness :
  exists t, tickers (events (env_ok [])) = [t] /\
            deferrals (events (env_ok [])) = [DeferTickerStop t] /\
            last (events (env_ok [])) = Some (EvTickerStop t).
Proof.
  destruct (ticker_owned_by_main (env_ok []) (time.mkTicker 2 3 20000000000%Z))
    as (Ht & Hd & _ & _ & Hr & _).
  { vm_compute. apply list_elem_of_singleton. reflexivity. }
  eexists. split; [exact Ht|]. split; [exact Hd|].
  apply Hr. reflexivity.
Defined.

(** ** Launching the watcher *)

Lemma checks_registered_leader_elect (b : bool) (env : Env) (fl : Flags) :
  checks_registered env fl ->
  checks_registered (with_leader_elect b env) (flag.set_enableLeaderElection b fl).
Proof.
  intros ((Hp & Hc & Hm) & Hs & Hh & Hr).
  unfold checks_registered, manager_created, parsed, with_leader_elect in *.
  cbn. rewrite parse_app, Hp. repeat split; assumption.
Qed.

(** C10. The watcher goroutine is launched before the manager is started,
    whatever the value of [-leader-elect]: a run that constructs the watcher
    executes [go codeServerWatcher.Run] and only later [mgr.Start], and the
    same run with leader election switched on or off launches the watcher as
    well. *)
Theorem watcher_not_gated_on_leader_election (env : Env) (w : CodeServerWatcher) :
  w ∈ watchers (events env) ->
  (exists i j ctx m,
      events env !! i = Some (EvGo (WatcherRun w (Done ctx))) /\
      events env !! j = Some (EvStart m ctx) /\
      i < j /\
      starts (events env) = [(m, ctx)]) /\
  (forall b, exists w' ctx' m',
      goroutines (events (with_leader_elect b env)) = [WatcherRun w' (Done ctx')] /\
      managers (events (with_leader_elect b env)) = [m'] /\
      LeaderElection (mgr_options m') = b).
Proof.
  intros Hw. split.
  - revert Hw. exec env; intros H; elems H; subst w;
      exists 10, 12; do 2 eexists;
      (split; [|split; [reflexivity|split; [lia|reflexivity]]]); reflexivity.
  - intros b.
    destruct (watcher_reached _ _ Hw) as (fl & Hreg & Hpos).
    destruct (reached_launch _ _ (checks_registered_leader_elect b _ _ Hreg) Hpos)
      as (w' & ctx' & m' & _ & Hg & Hm & _ & Hl).
    exists w', ctx', m'. repeat split; assumption.
Qed.

Lemma watcher_not_gated_on_leader_election_witness :
  exists w,
    watchers (events (env_ok [])) = [w] /\
    (forall b, exists w' ctx' m',
        goroutines (events (with_leader_elect b (env_ok []))) =
          [WatcherRun w' (Done ctx')] /\
        managers (events (with_leader_elect b (env_ok []))) = [m'] /\
        LeaderElection (mgr_options m') = b).
Proof.
  destruct (reached_launch (env_ok []) flag.defaults) as (w & ? & ? & Hw & _).
  { repeat split; reflexivity. }
  { reflexivity. }
  exists w. split; [exact Hw|].
  apply (watcher_not_gated_on_leader_election (env_ok []) w).
  rewrite Hw. apply list_elem_of_singleton. reflexivity.
Defined.

(** ** The period of the ticker *)

Lemma probe_period_exact (fl : Flags) :
  (-9223372036 <= ProbeInterval (csOption fl) <= 9223372036)%Z ->
  probe_period fl = (ProbeInterval (csOption fl) * 1000000000)%Z.
Proof. apply seconds_exact. Qed.

(** C6, as written, fails: with [-probe-interval=18446744074] the product
    with [time.Second] overflows 64 bits and the ticker's period is
    290448384 nanoseconds, not 18446744074 seconds. *)
Lemma ticker_period_overflow :
  exists fl t,
    parsed (env_interval 18446744074) fl /\
    ProbeInterval (csOption fl) = 18446744074%Z /\
    tickers (events (env_interval 18446744074)) = [t] /\
    time.period t = 290448384%Z /\
    time.period t <> (ProbeInterval (csOption fl) * time.Second)%Z.
Proof.
  exists (flag.with_option (flag.set_ProbeInterval 18446744074) flag.defaults),
         (time.mkTicker 2 3 290448384%Z).
  repeat split; try (vm_compute; reflexivity).
  vm_compute. discriminate.
Qed.

(** C6, amended. When the probe interval is between 1 and 9223372036
    seconds, [main] constructs one ticker whose period is exactly that many
    seconds, and the watcher is handed the ticker's channel [C] and no
    reference to the ticker.  The interval is the last value of the flag
    [probe-interval], 20 when the flag is absent. *)
Theorem ticker_period (env : Env) (fl : Flags) :
  checks_registered env fl ->
  (1 <= ProbeInterval (csOption fl) <= 9223372036)%Z ->
  ProbeInterval (csOption fl) = flag.last_int "probe-interval" (args env) 20 /\
  exists t w,
    tickers (events env) = [t] /\
    time.period t = (ProbeInterval (csOption fl) * time.Second)%Z /\
    watchers (events env) = [w] /\
    w_probeTicker w = time.C t /\
    time.ticker_id t ∉ [watcher_id w; w_reqCh w; w_probeTicker w].
Proof.
  intros Hreg Hp. split.
  { destruct Hreg as ((Hparse & _) & _).
    apply (parse_ProbeInterval _ _ _ _ Hparse). }
  assert (Hper : probe_period fl = (ProbeInterval (csOption fl) * 1000000000)%Z)
    by (apply probe_period_exact; lia).
  destruct Hreg as ((Hparse & Hc & Hm) & Hs & Hh & Hr).
  exec env; try discriminate; try lia.
  all: do 2 eexists; split; [reflexivity|]; split; [exact Hper|];
    split; [reflexivity|]; split; [reflexivity|].
  all: intros Hin; elems Hin; discriminate.
Qed.

Lemma ticker_period_witness :
  exists t w,
    tickers (events (env_interval 30)) = [t] /\
    time.period t = (30 * time.Second)%Z /\
    watchers (events (env_interval 30)) = [w] /\
    w_probeTicker w = time.C t.
Proof.
  destruct (ticker_period (env_interval 30)
              (flag.with_option (flag.set_ProbeInterval 30) flag.defaults))
    as (_ & t & w & Ht & Hp & Hw & Hc & _).
  { repeat split; reflexivity. }
  { cbn. lia. }
  exists t, w. repeat split; assumption.
Defined.

(** ** Probe intervals that are not positive *)

(** C8, as written, fails: with [-probe-interval=-9223372037] the product
    with [time.Second] wraps around to a positive duration, the ticker is
    constructed and the run goes on to launch the watcher and start the
    manager. *)
Lemma negative_interval_without_panic :
  exists fl t w m ctx,
    parsed (env_interval (-9223372037)) fl /\
    (ProbeInterval (csOption fl) <= 0)%Z /\
    outcome (env_interval (-9223372037)) = Returned tt /\
    tickers (events (env_interval (-9223372037))) = [t] /\
    time.period t = 9223372036709551616%Z /\
    watchers (events (env_interval (-9223372037))) = [w] /\
    starts (events (env_interval (-9223372037))) = [(m, ctx)].
Proof.
  pose (fl := flag.with_option (flag.set_ProbeInterval (-9223372037)) flag.defaults).
  pose (m := mkManager 0 (mkManagerOptions scheme ":8080" 9443 ":8081" false
                                           "beb50962.opensourceways.com")).
  exists fl, (time.mkTicker 2 3 9223372036709551616%Z),
         (mkWatcher 4 (GetClient m)
                    (ctrl_Log_WithName ["controllers"; "CodeServerWatcher"])
                    (GetScheme m) (AddrOf_csOption (csOption fl)) 1 3),
         m, (mkContext 5 6).
  repeat split; try (vm_compute; reflexivity).
  vm_compute. discriminate.
Qed.

(** C8, amended. [main] hands the probe interval to the ticker constructor
    unchecked, as the 64-bit product of the flag value and [time.Second].
    For a flag value between -9223372036 and 0 the construction panics and
    neither the watcher nor the manager is started; a run constructs the
    watcher only if that product is positive, which for flag values up to
    9223372036 in absolute value means an interval of at least 1. *)
Theorem nonpositive_interval_panics (env : Env) (fl : Flags) :
  checks_registered env fl ->
  (forall t, t ∈ tickers (events env) -> time.period t = probe_period fl) /\
  (forall w, w ∈ watchers (events env) -> (0 < probe_period fl)%Z) /\
  ((-9223372036 <= ProbeInterval (csOption fl) <= 0)%Z ->
   outcome env = Panicked "non-positive interval for NewTicker" /\
   tickers (events env) = [] /\
   watchers (events env) = [] /\
   goroutines (events env) = [] /\
   starts (events env) = []) /\
  ((-9223372036 <= ProbeInterval (csOption fl) <= 9223372036)%Z ->
   watchers (events env) <> [] ->
   (1 <= ProbeInterval (csOption fl))%Z).
Proof.
  intros ((Hparse & Hc & Hm) & Hs & Hh & Hr).
  split; [|split; [|split]].
  - intros t. exec env; try discriminate; intros H; elems H; subst t; reflexivity.
  - intros w. exec env; try discriminate; intros H; elems H; lia.
  - intros Hp.
    assert (Hper : probe_period fl = (ProbeInterval (csOption fl) * 1000000000)%Z)
      by (apply probe_period_exact; lia).
    exec env; try discriminate; try lia; repeat split; reflexivity.
  - intros Hp.
    assert (Hper : probe_period fl = (ProbeInterval (csOption fl) * 1000000000)%Z)
      by (apply probe_period_exact; lia).
    exec env; try discriminate; intros Hne; try lia; congruence.
Qed.

Lemma nonpositive_interval_panics_witness :
  outcome (env_interval 0) = Panicked "non-positive interval for NewTicker" /\
  watchers (events (env_interval 0)) = [].
Proof.
  destruct (nonpositive_interval_panics (env_interval 0)
              (flag.with_option (flag.set_ProbeInterval 0) flag.defaults))
    as (_ & _ & H & _).
  { repeat split; reflexivity. }
  destruct H as (Ho & _ & Hw & _).
  { cbn. lia. }
  split; assumption.
Defined.

(** ** Startup failures *)

(** C9. Each of the five calls whose error [main] checks ends the process
    with status 1 when it fails: the error is logged with the message of
    that call, [os.Exit(1)] follows at once and nothing later in [main] is
    executed.  A run in which an error was logged has exited with status 1,
    and [main] returns only if none of the five calls failed. *)
Theorem startup_failure_exits_1 (env : Env) (fl : Flags) :
  parsed env fl -> config_found env = true ->
  (forall e, NewManager_err env = Some e ->
     outcome env = Exited 1 /\
     final 2 (events env) = [EvError e "unable to start manager" []; EvExit 1] /\
     made_chans (events env) = [] /\ setups (events env) = []) /\
  (forall e, NewManager_err env = None -> SetupWithManager_err env = Some e ->
     outcome env = Exited 1 /\
     final 2 (events env) =
       [EvError e "unable to create controller" ["controller"; "CodeServer"];
        EvExit 1] /\
     tickers (events env) = [] /\ goroutines (events env) = [] /\
     starts (events env) = []) /\
  (forall e, NewManager_err env = None -> SetupWithManager_err env = None ->
     AddHealthzCheck_err env = Some e ->
     outcome env = Exited 1 /\
     final 2 (events env) = [EvError e "unable to set up health check" []; EvExit 1] /\
     tickers (events env) = [] /\ goroutines (events env) = [] /\
     starts (events env) = []) /\
  (forall e, NewManager_err env = None -> SetupWithManager_err env = None ->
     AddHealthzCheck_err env = None -> AddReadyzCheck_err env = Some e ->
     outcome env = Exited 1 /\
     final 2 (events env) = [EvError e "unable to set up ready check" []; EvExit 1] /\
     tickers (events env) = [] /\ goroutines (events env) = [] /\
     starts (events env) = []) /\
  (forall e, checks_registered env fl -> (0 < probe_period fl)%Z ->
     Start_err env = Some e ->
     outcome env = Exited 1 /\
     final 2 (events env) = [EvError e "problem running manager" []; EvExit 1] /\
     ticker_stops (events env) = []) /\
  (errors (events env) <> [] ->
     outcome env = Exited 1 /\ last (events env) = Some (EvExit 1) /\
     length (errors (events env)) = 1) /\
  (outcome env = Returned tt ->
     NewManager_err env = None /\ SetupWithManager_err env = None /\
     AddHealthzCheck_err env = None /\ AddReadyzCheck_err env = None /\
     Start_err env = None).
Proof.
  intros Hp Hc. repeat apply conj.
  - intros e He. exec env; try discriminate.
    all: repeat split; reflexivity.
  - intros e Hm He. exec env; try discriminate.
    all: repeat split; reflexivity.
  - intros e Hm Hs He. exec env; try discriminate.
    all: repeat split; reflexivity.
  - intros e Hm Hs Hh He. exec env; try discriminate.
    all: repeat split; reflexivity.
  - intros e ((_ & _ & Hm) & Hs & Hh & Hr) Hpos He.
    exec env; try discriminate; try lia.
    all: repeat split; reflexivity.
  - exec env; try discriminate; intros Hne; try congruence;
      repeat split; reflexivity.
  - exec env; try discriminate; intros Ho; try discriminate;
      repeat split; reflexivity.
Qed.

Lemma startup_failure_exits_1_witness :
  outcome env_setup_fails = Exited 1 /\
  final 2 (events env_setup_fails) =
    [EvError "no kind CodeServer" "unable to create controller"
             ["controller"; "CodeServer"];
     EvExit 1].
Proof.
  destruct (startup_failure_exits_1 env_setup_fails flag.defaults) as (_ & H & _).
  { reflexivity. }
  { reflexivity. }
  destruct (H "no kind CodeServer") as (Ho & Hf & _).
  { reflexivity. }
  { reflexivity. }
  split; assumption.
Defined.

(** ** Sending on a full request channel *)

Section WatcherSend.

Import Watcher.

Variable maxProbeRetry : nat.

Lemma emit_counters r st : counters (emit r st) = counters st.
Proof. unfold emit; destruct (try_send r (reqCh st)); reflexivity. Qed.

Lemma emit_full r st :
  is_full (reqCh st) = true ->
  emit r st = mkState (counters st) (reqCh st) (log st ++ [Dropped r]).
Proof. unfold emit, try_send; intros ->; reflexivity. Qed.

Lemma probe_one_full st i :
  is_full (reqCh st) = true ->
  reqCh (probe_one maxProbeRetry st i) = reqCh st.
Proof.
  intros Hfull. unfold probe_one.
  repeat match goal with
         | |- context [if ?b then _ else _] => destruct b
         end;
    try rewrite emit_full by exact Hfull; reflexivity.
Qed.

Lemma probe_one_counters st1 st2 i :
  counters st1 = counters st2 ->
  counters (probe_one maxProbeRetry st1 i) =
    counters (probe_one maxProbeRetry st2 i).
Proof.
  intros Heq. unfold probe_one, counter. rewrite Heq.
  repeat match goal with
         | |- context [if ?b then _ else _] => destruct b
         end;
    rewrite ?emit_counters; cbn; rewrite Heq; reflexivity.
Qed.

Lemma probe_one_key st i :
  is_Some (counters (probe_one maxProbeRetry st i) !! inst_key i).
Proof.
  unfold probe_one.
  repeat match goal with
         | |- context [if ?b then _ else _] => destruct b
         end;
    rewrite ?emit_counters; cbn; rewrite lookup_insert_eq; eauto.
Qed.

Lemma probe_one_keeps st i k :
  is_Some (counters st !! k) ->
  is_Some (counters (probe_one maxProbeRetry st i) !! k).
Proof.
  intros Hk. unfold probe_one.
  repeat match goal with
         | |- context [if ?b then _ else _] => destruct b
         end;
    rewrite ?emit_counters; cbn;
    (destruct (decide (inst_key i = k)) as [->|Hne];
     [rewrite lookup_insert_eq; eauto
     |rewrite lookup_insert_ne by exact Hne; exact Hk]).
Qed.

Lemma pass_full l : forall st,
  is_full (reqCh st) = true ->
  reqCh (fold_left (probe_one maxProbeRetry) l st) = reqCh st.
Proof.
  induction l as [|i l IH]; intros st Hfull; cbn; [reflexivity|].
  rewrite IH; rewrite probe_one_full by exact Hfull; auto.
Qed.

Lemma pass_counters l : forall st1 st2,
  counters st1 = counters st2 ->
  counters (fold_left (probe_one maxProbeRetry) l st1) =
    counters (fold_left (probe_one maxProbeRetry) l st2).
Proof.
  induction l as [|i l IH]; intros st1 st2 Heq; cbn; [exact Heq|].
  apply IH, probe_one_counters, Heq.
Qed.

Lemma pass_keeps l : forall st k,
  is_Some (counters st !! k) ->
  is_Some (counters (fold_left (probe_one maxProbeRetry) l st) !! k).
Proof.
  induction l as [|i l IH]; intros st k Hk; cbn; [exact Hk|].
  apply IH, probe_one_keeps, Hk.
Qed.

Lemma pass_probes_all l : forall st i,
  i ∈ l ->
  is_Some (counters (fold_left (probe_one maxProbeRetry) l st) !! inst_key i).
Proof.
  induction l as [|j l IH]; intros st i Hin; [elems Hin|].
  apply elem_of_cons in Hin as [->|Hin]; cbn.
  - apply pass_keeps, probe_one_key.
  - apply IH, Hin.
Qed.

End WatcherSend.

(** C2. While the request channel created by [main] holds 10 requests, a
    send by the watcher returns at once: the request is dropped, one log
    entry records it, and the channel and the failure counters are as
    before.  A whole pass over the instances then completes with the channel
    untouched, probes every tracked instance, and leaves the counters it
    would have left had every send gone through. *)
Theorem full_channel_send_drops (st : Watcher.State) (r : Watcher.ReconcileRequest) :
  Watcher.capacity (Watcher.reqCh st) = REQUEST_CHAN_SIZE ->
  length (Watcher.queue (Watcher.reqCh st)) = 10 ->
  Watcher.try_send r (Watcher.reqCh st) = None /\
  Watcher.emit r st =
    Watcher.mkState (Watcher.counters st) (Watcher.reqCh st)
                    (Watcher.log st ++ [Watcher.Dropped r]) /\
  (forall maxProbeRetry instances,
      let st' := Watcher.tick maxProbeRetry instances st in
      Watcher.reqCh st' = Watcher.reqCh st /\
      (forall ch,
          Watcher.counters st' =
            Watcher.counters
              (Watcher.tick maxProbeRetry instances
                 (Watcher.mkState (Watcher.counters st) ch (Watcher.log st)))) /\
      (forall i, i ∈ instances -> Watcher.tracked i = true ->
                 is_Some (Watcher.counters st' !! Watcher.inst_key i))).
Proof.
  intros Hcap Hlen.
  assert (Hfull : Watcher.is_full (Watcher.reqCh st) = true).
  { unfold Watcher.is_full. rewrite Hcap, Hlen. reflexivity. }
  split; [|split].
  - unfold Watcher.try_send. rewrite Hfull. reflexivity.
  - apply emit_full, Hfull.
  - intros m instances st'. subst st'. unfold Watcher.tick. repeat split.
    + apply pass_full, Hfull.
    + intros ch. apply pass_counters. reflexivity.
    + intros i Hin Htr. apply pass_probes_all.
      apply list_elem_of_In, filter_In. split; [|exact Htr].
      apply list_elem_of_In, Hin.
Qed.

Lemma full_channel_send_drops_witness :
  Watcher.emit Watcher.alice_failed Watcher.saturated =
    Watcher.mkState ∅ (Watcher.reqCh Watcher.saturated)
                    [Watcher.Dropped Watcher.alice_failed].
Proof.
  apply (full_channel_send_drops Watcher.saturated Watcher.alice_failed);
    reflexivity.
Defined.


(** * Further properties of [main] *)

(** ** What the flags end up holding *)

Section FlagValues.

Variable other : string -> FlagValue -> bool.

Ltac name_cases n :=
  repeat match goal with
         | H : context [String.eqb n ?s] |- _ =>
             destruct (String.eqb_spec n s); [subst n | ]
         end.

Ltac value_cases :=
  repeat match goal with
         | H : (_ ≫= _) = Some _ |- _ =>
             apply bind_Some in H; destruct H as (? & ? & ?)
         | H : flag.as_int ?v = Some _ |- _ =>
             destruct v; cbn -[GoInt.in_int64] in H; try discriminate
         | H : flag.as_string ?v = Some _ |- _ =>
             destruct v; cbn in H; try discriminate
         | H : flag.as_bool ?v = Some _ |- _ =>
             destruct v; cbn in H; try discriminate
         | H : Some _ = Some _ |- _ => injection H as H; subst
         | H : (if ?b then _ else _) = Some _ |- _ =>
             destruct b eqn:?; try discriminate
         end.

Lemma Set_last_values f a f' :
  flag.Set_ other f a = Some f' -> f' = flag.last_values f [a].
Proof.
  destruct a as [n v]; unfold flag.Set_; intros H.
  destruct f as [ma le pa [dn vs pi mr hs lx ui mc]].
  name_cases n; cbn in *; value_cases; try reflexivity.
  unfold flag.last_values, flag.last_string, flag.last_bool, flag.last_int; cbn.
  repeat match goal with
         | |- context [String.eqb n ?s] =>
             destruct (String.eqb_spec n s); [congruence | ]
         end.
  reflexivity.
Qed.

Lemma last_values_cons f a rest :
  flag.last_values f (a :: rest) = flag.last_values (flag.last_values f [a]) rest.
Proof. reflexivity. Qed.

Lemma parse_last_values a : forall f fl,
  flag.parse other f a = Some fl -> fl = flag.last_values f a.
Proof.
  induction a as [|x rest IH]; intros f fl H.
  - injection H as <-. destruct f as [ma le pa []]. reflexivity.
  - cbn [flag.parse] in H.
    destruct (flag.Set_ other f x) as [f'|] eqn:Hset; [|discriminate].
    rewrite last_values_cons, <- (Set_last_values _ _ _ Hset).
    apply IH, H.
Qed.

Lemma Set_ints_in_range f a f' :
  flag.Set_ other f a = Some f' ->
  flag.ints_in_range f = true -> flag.ints_in_range f' = true.
Proof.
  destruct a as [n v]; unfold flag.Set_, flag.ints_in_range; intros H Hr.
  apply andb_true_iff in Hr as [Hr H3]. apply andb_true_iff in Hr as [H1 H2].
  name_cases n; cbn -[GoInt.in_int64] in *; value_cases; cbn -[GoInt.in_int64];
    rewrite !andb_true_iff; auto.
Qed.

Lemma parse_ints_in_range a : forall f fl,
  flag.parse other f a = Some fl ->
  flag.ints_in_range f = true -> flag.ints_in_range fl = true.
Proof.
  induction a as [|x rest IH]; intros f fl H Hr.
  - injection H as <-. exact Hr.
  - cbn [flag.parse] in H.
    destruct (flag.Set_ other f x) as [f'|] eqn:Hset; [|discriminate].
    apply (IH _ _ H), (Set_ints_in_range _ _ _ Hset), Hr.
Qed.

(** An integer flag refuses a number that does not fit in an [int],
    whatever the variables hold. *)
Lemma Set_int_out_of_range f name z :
  name ∈ flag.int_flags -> GoInt.in_int64 z = false ->
  flag.Set_ other f (name, FInt z) = None.
Proof.
  intros Hn Hz. unfold flag.int_flags in Hn.
  elems Hn; subst name; cbn -[GoInt.in_int64]; rewrite Hz; reflexivity.
Qed.

Lemma parse_int_out_of_range a b name z : forall f,
  name ∈ flag.int_flags -> GoInt.in_int64 z = false ->
  flag.parse other f (a ++ (name, FInt z) :: b) = None.
Proof.
  intros f Hn Hz. rewrite parse_app.
  destruct (flag.parse other f a) as [f'|]; [|reflexivity].
  cbn [flag.parse]. rewrite (Set_int_out_of_range _ _ _ Hn Hz). reflexivity.
Qed.

(** [flag.Parse] returns an error exactly when it does not return the
    variables. *)
Lemma parse_error_None a : forall f,
  flag.parse_error other f a = None -> exists fl, flag.parse other f a = Some fl.
Proof.
  induction a as [|x rest IH]; intros f H; cbn in *; [eauto|].
  destruct (flag.Set_ other f x); [apply IH, H | discriminate].
Qed.

Lemma parse_Some_no_error a : forall f fl,
  flag.parse other f a = Some fl -> flag.parse_error other f a = None.
Proof.
  induction a as [|x rest IH]; intros f fl H; cbn in *; [reflexivity|].
  destruct (flag.Set_ other f x); [apply (IH _ _ H) | discriminate].
Qed.

Lemma parse_error_app a b : forall f,
  flag.parse_error other f (a ++ b) =
    match flag.parse other f a with
    | Some f' => flag.parse_error other f' b
    | None => flag.parse_error other f a
    end.
Proof.
  induction a as [|x rest IH]; intros f; cbn; [reflexivity|].
  destruct (flag.Set_ other f x); [apply IH | reflexivity].
Qed.

(** [ErrHelp] comes from an argument [-h] or [-help] that no flag claims,
    all arguments before it having been accepted. *)
Lemma parse_error_help a : forall f,
  flag.parse_error other f a = Some flag.ErrHelp ->
  exists pre x post f',
    a = pre ++ x :: post /\
    flag.parse other f pre = Some f' /\
    flag.Set_ other f' x = None /\
    (fst x = "help" \/ fst x = "h").
Proof.
  induction a as [|x rest IH]; intros f H; cbn in H; [discriminate|].
  destruct (flag.Set_ other f x) as [f'|] eqn:Hset.
  - destruct (IH _ H) as (pre & y & post & g & -> & Hp & Hs & Hn).
    exists (x :: pre), y, post, g. cbn. rewrite Hset. auto.
  - exists [], x, rest, f. repeat split; try assumption.
    injection H as H. unfold flag.error_of in H.
    destruct (String.eqb_spec (fst x) "help"); [auto|].
    destruct (String.eqb_spec (fst x) "h"); [auto|discriminate].
Qed.

(** The error at an out-of-range integer: that of the arguments before
    it, if they have one, and otherwise not [ErrHelp]. *)
Lemma parse_error_int_out_of_range a b name z f :
  name ∈ flag.int_flags -> GoInt.in_int64 z = false ->
  flag.parse_error other f (a ++ (name, FInt z) :: b) =
    match flag.parse_error other f a with
    | Some e => Some e
    | None => Some flag.ErrOther
    end.
Proof.
  intros Hn Hz. rewrite parse_error_app.
  destruct (flag.parse other f a) as [f'|] eqn:Hp.
  - rewrite (parse_Some_no_error _ _ _ Hp). cbn [flag.parse_error].
    rewrite (Set_int_out_of_range _ _ _ Hn Hz).
    unfold flag.int_flags in Hn. elems Hn; subst name; reflexivity.
  - destruct (flag.parse_error other f a) eqn:He; [reflexivity|].
    destruct (parse_error_None _ _ He) as (fl & Hfl). congruence.
Qed.

End FlagValues.

(** X1. Parsing the command line gives every flag variable the last value
    given to that flag, and its default when the flag does not occur: flags
    do not interfere with one another. *)
Theorem parsed_flags_are_last_values (env : Env) (fl : Flags) :
  parsed env fl -> fl = flag.last_values flag.defaults (args env).
Proof. apply parse_last_values. Qed.

Lemma parsed_flags_are_last_values_witness :
  flag.with_option (flag.set_MaxProbeRetry 5)
                   (flag.set_enableLeaderElection true flag.defaults) =
    flag.last_values flag.defaults
      (args (env_ok [("max-probe-retry", FInt 3); ("leader-elect", FBool true);
                     ("max-probe-retry", FInt 5)])).
Proof.
  apply (parsed_flags_are_last_values
           (env_ok [("max-probe-retry", FInt 3); ("leader-elect", FBool true);
                    ("max-probe-retry", FInt 5)])).
  reflexivity.
Defined.

(** X2. Whatever the command line, the three integer options that [main]
    hands to the reconciler and the watcher are 64-bit integers. *)
Theorem int_options_fit_int (env : Env) (fl : Flags) :
  parsed env fl ->
  (GoInt.MinInt64 <= ProbeInterval (csOption fl) <= GoInt.MaxInt64)%Z /\
  (GoInt.MinInt64 <= MaxProbeRetry (csOption fl) <= GoInt.MaxInt64)%Z /\
  (GoInt.MinInt64 <= MaxConcurrency (csOption fl) <= GoInt.MaxInt64)%Z.
Proof.
  intros Hp.
  assert (H : flag.ints_in_range fl = true)
    by (apply (parse_ints_in_range _ _ _ _ Hp); reflexivity).
  unfold flag.ints_in_range, GoInt.in_int64 in H.
  rewrite !andb_true_iff, !Z.leb_le in H. tauto.
Qed.

Lemma int_options_fit_int_witness :
  (GoInt.MinInt64 <= 18446744074 <= GoInt.MaxInt64)%Z.
Proof.
  apply (int_options_fit_int (env_interval 18446744074)
           (flag.with_option (flag.set_ProbeInterval 18446744074) flag.defaults)).
  reflexivity.
Defined.

(** X3. A number that does not fit in an [int], given to one of the three
    integer flags anywhere on the command line, ends the process inside
    [flag.Parse], before [main] does anything else: with status 2, unless
    the arguments before it already stop the parse at [-h] or [-help], in
    which case the status is 0. *)
Theorem int_flag_out_of_range_exits
        (env : Env) (a b : list (string * FlagValue)) (name : string) (z : Z) :
  name ∈ flag.int_flags ->
  GoInt.in_int64 z = false ->
  args env = a ++ (name, FInt z) :: b ->
  (flag.parse_error (zap_flag env) flag.defaults a <> Some flag.ErrHelp /\
   outcome env = Exited 2 /\ events env = [EvExit 2]) \/
  (flag.parse_error (zap_flag env) flag.defaults a = Some flag.ErrHelp /\
   outcome env = Exited 0 /\ events env = [EvExit 0]).
Proof.
  intros Hn Hz Ha.
  unfold outcome, events, run, main, flag_Parse, bind.
  rewrite Ha, (parse_int_out_of_range _ a b name z _ Hn Hz),
    (parse_error_int_out_of_range _ a b name z _ Hn Hz).
  destruct (flag.parse_error (zap_flag env) flag.defaults a) as [[|]|];
    [right | left | left]; repeat split; try reflexivity; discriminate.
Qed.

Lemma int_flag_out_of_range_exits_witness :
  outcome (env_ok [("leader-elect", FBool true);
                   ("max-concurrency", FInt 9223372036854775808)]) = Exited 2 /\
  outcome (env_ok [("h", FBool true);
                   ("max-concurrency", FInt 9223372036854775808)]) = Exited 0.
Proof.
  split.
  - destruct (int_flag_out_of_range_exits
                (env_ok [("leader-elect", FBool true);
                         ("max-concurrency", FInt 9223372036854775808)])
                [("leader-elect", FBool true)] [] "max-concurrency"
                9223372036854775808) as [(_ & H & _)|(H & _)].
    + unfold flag.int_flags. rewrite !elem_of_cons. auto.
    + reflexivity.
    + reflexivity.
    + exact H.
    + discriminate H.
  - destruct (int_flag_out_of_range_exits
                (env_ok [("h", FBool true);
                         ("max-concurrency", FInt 9223372036854775808)])
                [("h", FBool true)] [] "max-concurrency"
                9223372036854775808) as [(H & _)|(_ & H & _)].
    + unfold flag.int_flags. rewrite !elem_of_cons. auto.
    + reflexivity.
    + reflexivity.
    + exfalso. apply H. reflexivity.
    + exact H.
Defined.

(** ** How a run ends *)

Lemma wrap64_range z :
  (GoInt.MinInt64 <= GoInt.wrap64 z <= GoInt.MaxInt64)%Z.
Proof.
  unfold GoInt.wrap64, GoInt.MinInt64, GoInt.MaxInt64.
  pose proof (Z.mod_pos_bound (z + 2 ^ 63) (2 ^ 64) eq_refl). lia.
Qed.

(** X4. [main] returns exactly when the flags parse, a configuration is
    found, the manager, the controller and the two checks are set up, the
    ticker period is positive and the manager runs to its end without
    error. *)
Theorem main_returns_iff (env : Env) :
  outcome env = Returned tt <->
  exists fl, checks_registered env fl /\ (0 < probe_period fl)%Z /\
             Start_err env = None.
Proof.
  exec env; split; intros H; try discriminate.
  all: try (eexists; repeat split; try reflexivity; lia).
  all: destruct H as (fl & ((Hp & Hc & Hm) & Hs & Hh & Hr) & Hpos & Hst);
    try discriminate; injection Hp as <-; lia.
Qed.

(** X5. A process that exits does so with status 0, 2 or 1.  Status 0
    means the parse stopped at an argument [-h] or [-help] that no flag
    claims, status 2 that it stopped at another error; in both cases
    nothing else was done.  Status 1 without a configuration comes before
    the manager is created and without a logged error; with a configuration
    it follows exactly one logged error. *)
Theorem exit_status_taxonomy (env : Env) (code : Z) :
  outcome env = Exited code ->
  (code = 0%Z /\
   flag.parse_error (zap_flag env) flag.defaults (args env) = Some flag.ErrHelp /\
   (exists pre x post,
       args env = pre ++ x :: post /\ (fst x = "help" \/ fst x = "h") /\
       flag.parse_error (zap_flag env) flag.defaults pre = None) /\
   events env = [EvExit 0]) \/
  (code = 2%Z /\
   flag.parse_error (zap_flag env) flag.defaults (args env) = Some flag.ErrOther /\
   events env = [EvExit 2]) \/
  (code = 1%Z /\ config_found env = false /\
   (exists fl, parsed env fl) /\
   events env = [EvSetLogger; EvExit 1]) \/
  (code = 1%Z /\ config_found env = true /\
   (exists fl, parsed env fl) /\
   (exists e msg, errors (events env) = [(e, msg)]) /\
   last (events env) = Some (EvExit 1)).
Proof.
  exec env; intros H; try discriminate; injection H as <-.
  all: try match goal with
           | Hp : flag.parse ?z ?d ?a = None, He : flag.parse_error ?z ?d ?a = None |- _ =>
               destruct (parse_error_None _ _ _ He) as (? & ?); congruence
           end.
  all: try match goal with
           | He : flag.parse_error ?z ?d ?a = Some flag.ErrHelp |- _ =>
               left; split; [reflexivity|]; split; [reflexivity|];
               split; [|reflexivity];
               destruct (parse_error_help _ _ _ He) as (pre & x & post & f' & -> & Hp' & _ & Hn);
               exists pre, x, post; repeat split;
               [exact Hn | exact (parse_Some_no_error _ _ _ _ Hp')]
           end.
  all: first [ right; left; repeat split; reflexivity
             | right; right; left; split; [reflexivity|]; split; [reflexivity|];
               split; [eexists; reflexivity | reflexivity]
             | right; right; right; split; [reflexivity|]; split; [reflexivity|];
               split; [eexists; reflexivity|];
               split; [do 2 eexists; reflexivity | reflexivity] ].
Qed.

Lemma exit_status_taxonomy_witness :
  events env_no_config = [EvSetLogger; EvExit 1] \/
  exists e msg, errors (events env_no_config) = [(e, msg)].
Proof.
  destruct (exit_status_taxonomy env_no_config 1) as [H|[H|[H|H]]].
  - reflexivity.
  - destruct H as (H & _). discriminate H.
  - destruct H as (H & _). discriminate H.
  - left. exact (proj2 (proj2 (proj2 H))).
  - right. exact (proj1 (proj2 (proj2 (proj2 H)))).
Defined.

(** X6. The only panic of [main] is that of the ticker constructor: the
    process panics exactly when it got as far as the ticker with a period
    that is not positive.  The request channel has then been created, but
    no ticker, no deferred call and no watcher exist. *)
Theorem panic_only_from_ticker (env : Env) (msg : string) :
  (outcome env = Panicked msg <->
   msg = "non-positive interval for NewTicker" /\
   exists fl, checks_registered env fl /\ (probe_period fl <= 0)%Z) /\
  (outcome env = Panicked msg ->
   tickers (events env) = [] /\
   deferrals (events env) = [] /\
   ticker_stops (events env) = [] /\
   watchers (events env) = [] /\
   (exists c, made_chans (events env) = [(c, REQUEST_CHAN_SIZE)]) /\
   last (events env) = Some (EvPanic msg)).
Proof.
  split.
  - exec env; split; intros H; try discriminate.
    all: try (injection H as <-; split; [reflexivity|];
              eexists; repeat split; try reflexivity; lia).
    all: destruct H as (-> & fl & ((Hp & Hc & Hm) & Hs & Hh & Hr) & Hpos);
      try discriminate; try reflexivity; injection Hp as <-; lia.
  - exec env; intros H; try discriminate; injection H as <-.
    repeat split; try reflexivity. eexists; reflexivity.
Qed.

(** ** What the manager, the reconciler and the watcher are given *)

(** X7. A run creates at most one manager.  Its options are the package's
    scheme, the metrics and probe addresses and the leader-election switch
    read from the flags, port 9443 and the fixed election identifier; the
    controller is registered with that manager and it is the one that is
    started. *)
Theorem manager_options_from_flags (env : Env) (m : Manager) :
  m ∈ managers (events env) ->
  managers (events env) = [m] /\
  config_found env = true /\
  (exists fl,
      parsed env fl /\
      mgr_options m =
        {| Options_Scheme := scheme;
           MetricsBindAddress := metricsAddr fl;
           Port := 9443;
           HealthProbeBindAddress := probeAddr fl;
           LeaderElection := enableLeaderElection fl;
           LeaderElectionID := "beb50962.opensourceways.com" |}) /\
  (forall r m' n, EvSetupWithManager r m' n ∈ events env -> m' = m) /\
  (forall m' ctx, (m', ctx) ∈ starts (events env) -> m' = m).
Proof.
  exec env; intros H; elems H; subst m.
  all: split; [reflexivity|]; split; [reflexivity|];
    split; [eexists; split; reflexivity|]; split.
  all: try (intros r m' n Hin; elems Hin; try discriminate;
            injection Hin as _ -> _; reflexivity).
  all: intros m' ctx Hin; elems Hin; injection Hin as -> _; reflexivity.
Qed.

Lemma manager_options_from_flags_witness :
  exists m, managers (events (env_ok [("leader-elect", FBool true)])) = [m] /\
            LeaderElection (mgr_options m) = true.
Proof.
  pose (m := mkManager 0 (mkManagerOptions scheme ":8080" 9443 ":8081" true
                                           "beb50962.opensourceways.com")).
  exists m. split; [|reflexivity].
  apply (manager_options_from_flags (env_ok [("leader-elect", FBool true)]) m).
  vm_compute. apply list_elem_of_singleton. reflexivity.
Defined.

(** X8. The reconciler and the watcher work on the same cluster and the
    same configuration: both hold the client and the scheme of the one
    manager and the pointer to the options parsed from the flags; only
    their loggers differ. *)
Theorem shared_configuration
        (env : Env) (r : CodeServerReconciler) (n : Z) (w : CodeServerWatcher) :
  (r, n) ∈ setups (events env) ->
  w ∈ watchers (events env) ->
  exists fl m,
    parsed env fl /\ managers (events env) = [m] /\
    Client r = GetClient m /\ w_client w = GetClient m /\
    Scheme r = GetScheme m /\ w_scheme w = GetScheme m /\
    Options r = AddrOf_csOption (csOption fl) /\
    w_options w = AddrOf_csOption (csOption fl) /\
    Log r = ctrl_Log_WithName ["controllers"; "CodeServer"] /\
    w_log w = ctrl_Log_WithName ["controllers"; "CodeServerWatcher"].
Proof.
  exec env; intros Hr Hw; elems Hw; elems Hr; subst w; injection Hr as -> _.
  all: do 2 eexists; repeat split; reflexivity.
Qed.

Lemma shared_configuration_witness :
  exists r w,
    setups (events (env_ok [])) = [(r, 10%Z)] /\
    watchers (events (env_ok [])) = [w] /\
    Options r = w_options w /\ Client r = w_client w.
Proof.
  pose (m := mkManager 0 (mkManagerOptions scheme ":8080" 9443 ":8081" false
                                           "beb50962.opensourceways.com")).
  pose (o := AddrOf_csOption (csOption flag.defaults)).
  pose (r := mkReconciler (GetClient m) (GetScheme m)
                          (ctrl_Log_WithName ["controllers"; "CodeServer"]) o 1).
  pose (w := mkWatcher 4 (GetClient m)
                       (ctrl_Log_WithName ["controllers"; "CodeServerWatcher"])
                       (GetScheme m) o 1 3).
  exists r, w.
  split; [vm_compute; reflexivity|]. split; [vm_compute; reflexivity|].
  destruct (shared_configuration (env_ok []) r 10 w)
    as (fl & m' & _ & _ & Hc1 & Hc2 & _ & _ & Ho1 & Ho2 & _).
  { vm_compute. apply list_elem_of_singleton. reflexivity. }
  { vm_compute. apply list_elem_of_singleton. reflexivity. }
  split; congruence.
Defined.

(** X9. Every ticker [main] constructs has a positive period that fits in
    a [Duration]: it is the 64-bit product of the probe interval and one
    second. *)
Theorem ticker_period_positive (env : Env) (t : time.Ticker) :
  t ∈ tickers (events env) ->
  (0 < time.period t <= GoInt.MaxInt64)%Z /\
  exists fl, parsed env fl /\ time.period t = probe_period fl.
Proof.
  exec env; intros H; elems H; subst t; cbn [time.period].
  all: split; [split; [lia|apply wrap64_range] | eexists; split; reflexivity].
Qed.

Lemma ticker_period_positive_witness :
  exists t, tickers (events (env_interval 18446744074)) = [t] /\
            (0 < time.period t <= GoInt.MaxInt64)%Z.
Proof.
  exists (time.mkTicker 2 3 290448384%Z). split; [vm_compute; reflexivity|].
  apply (ticker_period_positive (env_interval 18446744074)).
  vm_compute. apply list_elem_of_singleton. reflexivity.
Defined.

(** X10. A logged error names the call that failed: each of the five
    messages of [main] is logged only for the error returned by its own
    call, all earlier calls having succeeded. *)
Theorem logged_error_identifies_call (env : Env) (e : error) (msg : string) :
  (e, msg) ∈ errors (events env) ->
  (msg = "unable to start manager" /\ NewManager_err env = Some e) \/
  (msg = "unable to create controller" /\
   NewManager_err env = None /\ SetupWithManager_err env = Some e) \/
  (msg = "unable to set up health check" /\
   NewManager_err env = None /\ SetupWithManager_err env = None /\
   AddHealthzCheck_err env = Some e) \/
  (msg = "unable to set up ready check" /\
   NewManager_err env = None /\ SetupWithManager_err env = None /\
   AddHealthzCheck_err env = None /\ AddReadyzCheck_err env = Some e) \/
  (msg = "problem running manager" /\
   NewManager_err env = None /\ SetupWithManager_err env = None /\
   AddHealthzCheck_err env = None /\ AddReadyzCheck_err env = None /\
   Start_err env = Some e).
Proof.
  exec env; intros H; elems H; injection H as -> ->.
  all: first [ left; repeat split; reflexivity
             | right; left; repeat split; reflexivity
             | right; right; left; repeat split; reflexivity
             | right; right; right; left; repeat split; reflexivity
             | right; right; right; right; repeat split; reflexivity ].
Qed.

Lemma logged_error_identifies_call_witness :
  SetupWithManager_err env_setup_fails = Some "no kind CodeServer".
Proof.
  destruct (logged_error_identifies_call env_setup_fails "no kind CodeServer"
              "unable to create controller") as [H|[H|[H|[H|H]]]].
  - vm_compute. apply list_elem_of_singleton. reflexivity.
  - destruct H as (H & _). discriminate H.
  - exact (proj2 (proj2 H)).
  - destruct H as (H & _). discriminate H.
  - destruct H as (H & _). discriminate H.
  - destruct H as (H & _). discriminate H.
Defined.
